(** * snmputil: building an SNMP client from a connection profile

    A shallow embedding of [client.go] (package [snmputil]) and the
    properties of [NewClient]: version dispatch, SNMPv3 security-level
    validation, port defaulting and the hand-off to the gosnmp engine. *)

From Stdlib Require Import ZArith String List Lia.
From stdpp Require Import base option gmap strings.

Local Open Scope Z_scope.
Local Open Scope string_scope.

(** ** The standard packages [os] and [log], as far as [client.go] goes *)
Module os.
Inductive File := Stderr.
End os.

Module log.
Record Logger := { out : os.File; prefix : string; flag : Z }.
(** [log.New(out, prefix, flag)] *)
Definition New (w : os.File) (pre : string) (fl : Z) : Logger :=
  {| out := w; prefix := pre; flag := fl |}.
End log.

(** ** The parts of [github.com/soniah/gosnmp] that [client.go] uses

    The engine is an external library.  Its enumerations are unsigned
    integers; the values below are the ones the library declares.  The
    Go zero value of each of these types is [0]. *)
Module gosnmp.

(** [type SnmpV3AuthProtocol uint8] *)
Definition NoAuth : Z := 1.
Definition MD5 : Z := 2.
Definition SHA : Z := 3.

(** [type SnmpV3PrivProtocol uint8] *)
Definition NoPriv : Z := 1.
Definition DES : Z := 2.
Definition AES : Z := 3.

(** [type SnmpV3MsgFlags uint8] *)
Definition NoAuthNoPriv : Z := 0.
Definition AuthNoPriv : Z := 1.
Definition AuthPriv : Z := 3.

(** [type SnmpVersion uint8] *)
Definition Version1 : Z := 0.
Definition Version2c : Z := 1.
Definition Version3 : Z := 3.

(** [type SnmpV3SecurityModel uint8] *)
Definition UserSecurityModel : Z := 3.

(** [UsmSecurityParameters], restricted to the fields a caller sets.
    A field left out of a composite literal holds its zero value. *)
Record UsmSecurityParameters := {
  UserName : string;
  AuthenticationProtocol : Z;
  AuthenticationPassphrase : string;
  PrivacyProtocol : Z;
  PrivacyPassphrase : string
}.

(** [GoSNMP], restricted to the fields [NewClient] writes.  [Port] is a
    [uint16], [Timeout] a [time.Duration] (signed 64-bit nanoseconds),
    [SecurityParameters] an interface value and [Logger] a pointer, both
    [nil] ([None]) until assigned. *)
Record GoSNMP := {
  Target : string;
  Port : Z;
  Community : string;
  Version : Z;
  Timeout : Z;
  Retries : Z;
  Logger : option log.Logger;
  MsgFlags : Z;
  SecurityModel : Z;
  SecurityParameters : option UsmSecurityParameters
}.

Definition set_Version (v : Z) (c : GoSNMP) : GoSNMP :=
  {| Target := Target c; Port := Port c; Community := Community c;
     Version := v; Timeout := Timeout c; Retries := Retries c;
     Logger := Logger c; MsgFlags := MsgFlags c;
     SecurityModel := SecurityModel c;
     SecurityParameters := SecurityParameters c |}.

Definition set_Community (s : string) (c : GoSNMP) : GoSNMP :=
  {| Target := Target c; Port := Port c; Community := s;
     Version := Version c; Timeout := Timeout c; Retries := Retries c;
     Logger := Logger c; MsgFlags := MsgFlags c;
     SecurityModel := SecurityModel c;
     SecurityParameters := SecurityParameters c |}.

Definition set_MsgFlags (f : Z) (c : GoSNMP) : GoSNMP :=
  {| Target := Target c; Port := Port c; Community := Community c;
     Version := Version c; Timeout := Timeout c; Retries := Retries c;
     Logger := Logger c; MsgFlags := f;
     SecurityModel := SecurityModel c;
     SecurityParameters := SecurityParameters c |}.

Definition set_SecurityModel (m : Z) (c : GoSNMP) : GoSNMP :=
  {| Target := Target c; Port := Port c; Community := Community c;
     Version := Version c; Timeout := Timeout c; Retries := Retries c;
     Logger := Logger c; MsgFlags := MsgFlags c;
     SecurityModel := m;
     SecurityParameters := SecurityParameters c |}.

Definition set_SecurityParameters (u : option UsmSecurityParameters)
    (c : GoSNMP) : GoSNMP :=
  {| Target := Target c; Port := Port c; Community := Community c;
     Version := Version c; Timeout := Timeout c; Retries := Retries c;
     Logger := Logger c; MsgFlags := MsgFlags c;
     SecurityModel := SecurityModel c;
     SecurityParameters := u |}.

Definition set_Logger (l : option log.Logger) (c : GoSNMP) : GoSNMP :=
  {| Target := Target c; Port := Port c; Community := Community c;
     Version := Version c; Timeout := Timeout c; Retries := Retries c;
     Logger := l; MsgFlags := MsgFlags c;
     SecurityModel := SecurityModel c;
     SecurityParameters := SecurityParameters c |}.

End gosnmp.

(** ** Machine integers

    Go's [int] is taken at its 64-bit width (amd64, arm64); the fields of
    a [Profile] range over [Z] and every conversion writes its
    wrap-around out. *)

(** [uint16(x)]: the low sixteen bits. *)
Definition uint16 (x : Z) : Z := x mod 2 ^ 16.

(** Signed 64-bit wrap-around, the arithmetic of [time.Duration]. *)
Definition int64 (x : Z) : Z := (x + 2 ^ 63) mod 2 ^ 64 - 2 ^ 63.

Module time.
(** [time.Second], in nanoseconds. *)
Definition Second : Z := 1000000000.
(** [time.Duration(n)] for an [int] [n]. *)
Definition Duration (n : Z) : Z := int64 n.
(** The product of two durations. *)
Definition mul (a b : Z) : Z := int64 (a * b).
End time.

(** ** client.go *)

Definition defaultPort : Z := 161.

Definition authProto : gmap string Z :=
  {[ "NoAuth" := gosnmp.NoAuth; "MD5" := gosnmp.MD5; "SHA" := gosnmp.SHA ]}.

Definition privacy : gmap string Z :=
  {[ "NoPriv" := gosnmp.NoPriv; "DES" := gosnmp.DES; "AES" := gosnmp.AES ]}.

(** The six sentinel errors of the package, and the errors of the engine's
    [Connect], which belong to another package and are none of the six. *)
Inductive error :=
  | ErrBadUser
  | ErrBadPassword
  | ErrBadProtocol
  | ErrLevel
  | ErrPrivacy
  | ErrVersion
  | ErrConnect (msg : string).

Definition sentinel (e : error) : bool :=
  match e with ErrConnect _ => false | _ => true end.

Record Profile := {
  Host : string; Community : string; Version : string;
  Port : Z; Timeout : Z; Retries : Z;
  SecLevel : string; AuthUser : string; AuthPass : string;
  AuthProto : string; PrivProto : string; PrivPass : string
}.

Definition set_Port (n : Z) (p : Profile) : Profile :=
  {| Host := Host p; Community := Community p; Version := Version p;
     Port := n; Timeout := Timeout p; Retries := Retries p;
     SecLevel := SecLevel p; AuthUser := AuthUser p; AuthPass := AuthPass p;
     AuthProto := AuthProto p; PrivProto := PrivProto p;
     PrivPass := PrivPass p |}.

(** [len(s)] *)
Definition len (s : string) : Z := Z.of_nat (String.length s).

(** *** What a call of [NewClient] does to the outside, in order *)
Inductive event :=
  | LogPrintf (line : string)
  | ConnectCall (c : gosnmp.GoSNMP).

(** *** The variables of [NewClient] its closures share, and the trace *)
Record frame := {
  ok : bool;
  aProto : Z;
  pProto : Z;
  msgFlags : Z;
  trace : list event
}.

(** [var ok bool; var aProto ...; var pProto ...; var msgFlags ...] *)
Definition frame0 : frame :=
  {| ok := false; aProto := 0; pProto := 0; msgFlags := 0; trace := [] |}.

Definition M (A : Type) : Type := frame -> A * frame.

#[global] Instance M_ret : MRet M := fun A a s => (a, s).
#[global] Instance M_bind : MBind M :=
  fun A B f m s => let '(a, s') := m s in f a s'.

Definition gets {A} (f : frame -> A) : M A := fun s => (f s, s).

Definition emit (e : event) : M unit := fun s =>
  (tt, {| ok := ok s; aProto := aProto s; pProto := pProto s;
          msgFlags := msgFlags s; trace := trace s ++ [e] |}).

Definition log_Printf (line : string) : M unit := emit (LogPrintf line).

(** The two-result form [v, ok = m[key]]: a missing key gives the zero
    value of the element type and [false]. *)
Definition comma_ok {A} (zero : A) (r : option A) : A * bool :=
  match r with
  | Some v => (v, true)
  | None => (zero, false)
  end.

(** [aProto, ok = authProto[name]] *)
Definition lookup_aProto (name : string) : M unit := fun s =>
  let '(v, found) := comma_ok 0 (authProto !! name) in
  (tt, {| ok := found; aProto := v; pProto := pProto s;
          msgFlags := msgFlags s; trace := trace s |}).

(** [pProto, ok = privacy[name]] *)
Definition lookup_pProto (name : string) : M unit := fun s =>
  let '(v, found) := comma_ok 0 (privacy !! name) in
  (tt, {| ok := found; aProto := aProto s; pProto := v;
          msgFlags := msgFlags s; trace := trace s |}).

Definition set_msgFlags (f : Z) : M unit := fun s =>
  (tt, {| ok := ok s; aProto := aProto s; pProto := pProto s;
          msgFlags := f; trace := trace s |}).

(** *** Order of evaluation in [return &T{... aProto ...}, authCheck()]

    Go orders the function calls among the operands of a [return], and
    leaves open when a variable among them is read relative to those
    calls.  The gc toolchain first moves every call into a temporary and
    reads the variables when it builds the results, so the literal sees
    what [authCheck] assigned: [CallsThenReads].  A compiler that reads
    each operand where it stands gives [ReadsInPlace].  The embedding
    takes the order as an argument. *)
Inductive operand_order := CallsThenReads | ReadsInPlace.

(** [return lit, call()], where [lit] reads the shared variables. *)
Definition return_lit_call {A B} (o : operand_order)
    (lit : frame -> A) (call : M B) : M (A * B) :=
  match o with
  | CallsThenReads => e ← call; v ← gets lit; mret (v, e)
  | ReadsInPlace => v ← gets lit; e ← call; mret (v, e)
  end.

Section NewClient.

(** [Debug], a package variable declared in another file of the package. *)
Variable Debug : bool.

(** The engine's [Connect] method of a client: [None] is a [nil] error,
    [Some msg] a transport error. *)
Variable Connect : gosnmp.GoSNMP -> option string.

Definition client_Connect (c : gosnmp.GoSNMP) : M (option error) :=
  emit (ConnectCall c);; mret (ErrConnect <$> Connect c).

Definition authCheck (p : Profile) : M (option error) :=
  if (len (AuthPass p) <? 1)%Z then
    log_Printf ("Error no SNMPv3 password for host " ++ Host p);;
    mret (Some ErrBadPassword)
  else
    lookup_aProto (AuthProto p);;
    found ← gets ok;
    if negb found then
      log_Printf ("Error in Auth Protocol " ++ AuthProto p
                  ++ " for host " ++ Host p);;
      mret (Some ErrBadProtocol)
    else mret None.

Definition v3auth (o : operand_order) (p : Profile)
    : M (option gosnmp.UsmSecurityParameters * option error) :=
  if (len (AuthUser p) <? 1)%Z then
    log_Printf ("Error username not found in snmpv3 " ++ AuthUser p
                ++ " in host " ++ Host p);;
    mret (None, Some ErrBadUser)
  else if String.eqb (SecLevel p) "NoAuthNoPriv" then
    set_msgFlags gosnmp.NoAuthNoPriv;;
    mret (Some {| gosnmp.UserName := AuthUser p;
                  gosnmp.AuthenticationProtocol := gosnmp.NoAuth;
                  gosnmp.AuthenticationPassphrase := "";
                  gosnmp.PrivacyProtocol := gosnmp.NoPriv;
                  gosnmp.PrivacyPassphrase := "" |}, None)
  else if String.eqb (SecLevel p) "AuthNoPriv" then
    set_msgFlags gosnmp.AuthNoPriv;;
    return_lit_call o
      (fun s => Some {| gosnmp.UserName := AuthUser p;
                        gosnmp.AuthenticationProtocol := aProto s;
                        gosnmp.AuthenticationPassphrase := AuthPass p;
                        gosnmp.PrivacyProtocol := gosnmp.NoPriv;
                        gosnmp.PrivacyPassphrase := "" |})
      (authCheck p)
  else if String.eqb (SecLevel p) "AuthPriv" then
    set_msgFlags gosnmp.AuthPriv;;
    if (len (PrivPass p) <? 1)%Z then
      log_Printf ("Error privPass not found in snmpv3 for host " ++ Host p);;
      mret (None, Some ErrPrivacy)
    else
      lookup_pProto (PrivProto p);;
      found ← gets ok;
      if negb found then
        log_Printf ("Error in Priv Protocol " ++ PrivProto p
                    ++ " for host " ++ Host p);;
        mret (None, Some ErrBadPassword)
      else
        return_lit_call o
          (fun s => Some {| gosnmp.UserName := AuthUser p;
                            gosnmp.AuthenticationProtocol := aProto s;
                            gosnmp.AuthenticationPassphrase := AuthPass p;
                            gosnmp.PrivacyProtocol := pProto s;
                            gosnmp.PrivacyPassphrase := PrivPass p |})
          (authCheck p)
  else
    log_Printf ("invalid security level " ++ SecLevel p
                ++ " for host " ++ Host p);;
    mret (None, Some ErrLevel).

(** The [switch p.Version] of [NewClient]: the client with its version
    fields set, or the error of an early [return nil, err]. *)
Definition dispatch (o : operand_order) (p : Profile)
    (client : gosnmp.GoSNMP) : M (error + gosnmp.GoSNMP) :=
  if String.eqb (Version p) "1" then
    mret (inr (gosnmp.set_Community (Community p)
                 (gosnmp.set_Version gosnmp.Version1 client)))
  else if String.eqb (Version p) "2" || String.eqb (Version p) "2c" then
    mret (inr (gosnmp.set_Community (Community p)
                 (gosnmp.set_Version gosnmp.Version2c client)))
  else if String.eqb (Version p) "3" then
    '(usmParams, err) ← v3auth o p;
    match err with
    | Some e => mret (inl e)
    | None =>
        fl ← gets msgFlags;
        mret (inr (gosnmp.set_Version gosnmp.Version3
                     (gosnmp.set_SecurityParameters usmParams
                        (gosnmp.set_SecurityModel gosnmp.UserSecurityModel
                           (gosnmp.set_MsgFlags fl client)))))
    end
  else mret (inl ErrVersion).

Definition NewClient (o : operand_order) (p : Profile)
    : M (option gosnmp.GoSNMP * option error) :=
  let p := if (Port p =? 0)%Z then set_Port defaultPort p else p in
  let client :=
    {| gosnmp.Target := Host p;
       gosnmp.Port := uint16 (Port p);
       gosnmp.Timeout := time.mul (time.Duration (Timeout p)) time.Second;
       gosnmp.Retries := Retries p;
       gosnmp.Community := "";
       gosnmp.Version := 0;
       gosnmp.Logger := None;
       gosnmp.MsgFlags := 0;
       gosnmp.SecurityModel := 0;
       gosnmp.SecurityParameters := None |} in
  r ← dispatch o p client;
  match r with
  | inl err => mret (None, Some err)
  | inr client =>
      let client :=
        if Debug
        then gosnmp.set_Logger (Some (log.New os.Stderr "" 0)) client
        else client in
      err ← client_Connect client;
      mret (Some client, err)
  end.

(** One call of [NewClient], from fresh local variables: what it returns
    and what it did.  The returned pointer is read as the client it points
    to when it is handed to [Connect]; what the engine stores in the client
    from then on is the engine's matter. *)
Definition call (o : operand_order) (p : Profile)
    : (option gosnmp.GoSNMP * option error) * list event :=
  let '(r, s) := NewClient o p frame0 in (r, trace s).

Definition returned_client o p : option gosnmp.GoSNMP := fst (fst (call o p)).
Definition returned_error o p : option error := snd (fst (call o p)).
Definition events o p : list event := snd (call o p).

(** The call fails validation with [e]: [return nil, e]. *)
Definition rejected o p (e : error) : Prop :=
  returned_client o p = None /\ returned_error o p = Some e.

(** The call builds [c]: it logs nothing, hands [c] to the engine once
    and returns [c] with the engine's answer. *)
Definition built o p (c : gosnmp.GoSNMP) : Prop :=
  call o p = (Some c, ErrConnect <$> Connect c, [ConnectCall c]).

End NewClient.

(** ** Profiles and an engine to run the embedding on *)

(** An engine whose [Connect] always succeeds. *)
Definition connect_ok : gosnmp.GoSNMP -> option string := fun _ => None.

Definition profile (version level user apass aproto ppass pproto : string)
    (port timeout : Z) : Profile :=
  {| Host := "192.0.2.1"; Community := "public"; Version := version;
     Port := port; Timeout := timeout; Retries := 2;
     SecLevel := level; AuthUser := user; AuthPass := apass;
     AuthProto := aproto; PrivProto := pproto; PrivPass := ppass |}.

Definition ex_v2c := profile "2c" "" "" "" "" "" "" 0 5.
Definition ex_v4 := profile "4" "AuthPriv" "" "" "" "" "" 0 5.
Definition ex_NoAuthNoPriv :=
  profile "3" "NoAuthNoPriv" "admin" "" "bogus" "" "bogus" 0 5.
Definition ex_AuthNoPriv :=
  profile "3" "AuthNoPriv" "admin" "secret" "MD5" "" "" 0 5.
Definition ex_AuthPriv :=
  profile "3" "AuthPriv" "admin" "secret" "SHA" "private" "AES" 0 5.
Definition ex_AuthPriv_no_passphrases :=
  profile "3" "AuthPriv" "admin" "" "SHA" "" "AES" 0 5.
Definition ex_bad_level := profile "3" "authPriv" "admin" "" "" "" "" 0 5.
Definition ex_bad_level_no_user := profile "3" "authPriv" "" "" "" "" "" 0 5.
Definition ex_port_70000 := profile "2c" "" "" "" "" "" "" 70000 5.
Definition ex_long_timeout := profile "2c" "" "" "" "" "" "" 161 9223372037.

(** The profile with every v3 field blanked. *)
Definition without_v3_fields (p : Profile) : Profile :=
  {| Host := Host p; Community := Community p; Version := Version p;
     Port := Port p; Timeout := Timeout p; Retries := Retries p;
     SecLevel := ""; AuthUser := ""; AuthPass := "";
     AuthProto := ""; PrivProto := ""; PrivPass := "" |}.

(** The profile with its passphrases and algorithm names blanked. *)
Definition without_secrets (p : Profile) : Profile :=
  {| Host := Host p; Community := Community p; Version := Version p;
     Port := Port p; Timeout := Timeout p; Retries := Retries p;
     SecLevel := SecLevel p; AuthUser := AuthUser p; AuthPass := "";
     AuthProto := ""; PrivProto := ""; PrivPass := "" |}.

(** The profile with its privacy passphrase and algorithm name blanked. *)
Definition without_privacy (p : Profile) : Profile :=
  {| Host := Host p; Community := Community p; Version := Version p;
     Port := Port p; Timeout := Timeout p; Retries := Retries p;
     SecLevel := SecLevel p; AuthUser := AuthUser p; AuthPass := AuthPass p;
     AuthProto := AuthProto p; PrivProto := ""; PrivPass := "" |}.

(** An engine whose [Connect] always fails. *)
Definition connect_refused : gosnmp.GoSNMP -> option string :=
  fun _ => Some "connection refused".

Definition ex_port_65536 := profile "2c" "" "" "" "" "" "" 65536 5.

(** ** Proof tools *)

(** Unfold one call down to its tests on the profile and the table lookups. *)
Ltac run_go :=
  cbv beta iota zeta delta
    [call returned_client returned_error events rejected built NewClient
     dispatch v3auth authCheck return_lit_call client_Connect mbind M_bind
     mret M_ret gets emit log_Printf lookup_aProto lookup_pProto comma_ok
     set_msgFlags frame0 fst snd ok aProto pProto msgFlags trace app negb orb
     set_Port without_v3_fields without_secrets
     Host Community Version Port Timeout Retries SecLevel AuthUser
     AuthPass AuthProto PrivProto PrivPass].

(** The same, split on whether the port was given. *)
Ltac run_call :=
  run_go;
  match goal with
  | |- context [(?pt =? 0)%Z] => destruct (pt =? 0)%Z eqn:?
  end;
  cbv beta iota.

Lemma eqb_ne (a b : string) : a <> b -> String.eqb a b = false.
Proof. apply String.eqb_neq. Qed.

Lemma len_lt_1 (s : string) : (len s <? 1)%Z = true <-> s = "".
Proof.
  unfold len. destruct s as [|c s]; simpl String.length.
  - split; [reflexivity | intros _; reflexivity].
  - split; [intros H; apply Z.ltb_lt in H; lia | discriminate].
Qed.

Lemma len_ge_1 (s : string) : s <> "" -> (len s <? 1)%Z = false.
Proof.
  intros H. destruct (len s <? 1)%Z eqn:E; [|reflexivity].
  apply len_lt_1 in E. contradiction.
Qed.

(** Settle the tests whose outcome the hypotheses fix. *)
Ltac known_tests :=
  repeat (match goal with
  | |- context [String.eqb ?a ?b] =>
      let v := eval vm_compute in (String.eqb a b) in
      match v with
      | true => change (String.eqb a b) with true
      | false => change (String.eqb a b) with false
      end
  | H : ?a <> ?b |- context [String.eqb ?a ?b] => rewrite (eqb_ne a b H)
  | H : ?a <> "" |- context [(len ?a <? 1)%Z] => rewrite (len_ge_1 a H)
  | |- context [(len "" <? 1)%Z] => change (len "" <? 1)%Z with true
  | H : ?m !! ?k = _ |- context [?m !! ?k] => rewrite H
  end; cbv beta iota).

(** Split on every test that is left. *)
Ltac all_paths :=
  repeat match goal with
  | |- context [if ?b then _ else _] => destruct b eqn:?
  | |- context [match ?m !! ?k with Some _ => _ | None => _ end] =>
      destruct (m !! k) eqn:?
  | |- context [match ?o with CallsThenReads => _ | ReadsInPlace => _ end] =>
      destruct o
  end.

(** Open a profile into its fields and push what is known into them. *)
Ltac open_profile p :=
  destruct p as [h co v pt tm rt lv us ap apr ppr pp];
  cbn [Host Community Version Port Timeout Retries SecLevel AuthUser
       AuthPass AuthProto PrivProto PrivPass] in *.

(** ** Arithmetic of the conversions *)

Lemma uint16_small (x : Z) : (0 <= x < 65536)%Z -> uint16 x = x.
Proof. intros H. unfold uint16. apply Z.mod_small. lia. Qed.

Lemma int64_small (x : Z) :
  (- 2 ^ 63 <= x < 2 ^ 63)%Z -> int64 x = x.
Proof. intros H. unfold int64. rewrite Z.mod_small; lia. Qed.

Lemma int64_mul_l (a b : Z) : int64 (int64 a * b) = int64 (a * b).
Proof.
  unfold int64.
  pose proof (Z.div_mod (a + 2 ^ 63) (2 ^ 64) ltac:(lia)) as D.
  set (q := ((a + 2 ^ 63) / 2 ^ 64)%Z) in *.
  replace (((a + 2 ^ 63) mod 2 ^ 64 - 2 ^ 63) * b + 2 ^ 63)%Z
    with (a * b + 2 ^ 63 + (- q * b) * 2 ^ 64)%Z by lia.
  rewrite Z.mod_add by lia. reflexivity.
Qed.

Lemma seconds_wrap (t : Z) :
  time.mul (time.Duration t) time.Second = int64 (t * time.Second).
Proof. unfold time.mul, time.Duration. apply int64_mul_l. Qed.

(** ** The two ways a call ends *)

Section Outcomes.

Variable Debug : bool.
Variable Connect : gosnmp.GoSNMP -> option string.

(** A call ends in one of two ways: a sentinel error, no client and only
    log lines; or a client, handed to the engine once, with the engine's
    answer as the error.  The client's target, port, timeout and retry
    count are those computed before the version switch. *)
Lemma call_outcome (o : operand_order) (p : Profile) :
  (exists e lines,
      call Debug Connect o p = (None, Some e, LogPrintf <$> lines) /\
      sentinel e = true) \/
  (exists c,
      built Debug Connect o p c /\
      gosnmp.Target c = Host p /\
      gosnmp.Port c
        = uint16 (if (Port p =? 0)%Z then defaultPort else Port p) /\
      gosnmp.Timeout c
        = time.mul (time.Duration (Timeout p)) time.Second /\
      gosnmp.Retries c = Retries p).
Proof.
  open_profile p. run_go. all_paths.
  all: first
    [ right; eexists; split; [reflexivity|]; repeat split; reflexivity
    | left; eexists; eexists (_ :: nil); split; reflexivity
    | left; eexists; eexists nil; split; reflexivity ].
Qed.

Lemma returned_client_built (o : operand_order) (p : Profile) c :
  returned_client Debug Connect o p = Some c -> built Debug Connect o p c.
Proof.
  intros H. destruct (call_outcome o p) as [(e & l & E & _)|(c' & B & _)].
  - unfold returned_client in H. rewrite E in H. discriminate.
  - unfold returned_client in H. unfold built in B. rewrite B in H.
    cbn [fst] in H. injection H as ->. exact B.
Qed.

(** The fields of a returned client that do not depend on the version. *)
Lemma returned_client_fields (o : operand_order) (p : Profile) c :
  returned_client Debug Connect o p = Some c ->
  gosnmp.Target c = Host p /\
  gosnmp.Port c
    = uint16 (if (Port p =? 0)%Z then defaultPort else Port p) /\
  gosnmp.Timeout c = int64 (Timeout p * time.Second) /\
  gosnmp.Retries c = Retries p.
Proof.
  intros H.
  destruct (call_outcome o p) as [(e & l & E & _)|(c' & B & F)];
    unfold returned_client in H.
  - rewrite E in H. discriminate.
  - unfold built in B. rewrite B in H. cbn [fst] in H. injection H as ->.
    rewrite <- seconds_wrap. exact F.
Qed.

End Outcomes.

(** No name of the authentication table maps to the zero value. *)
Lemma authProto_nonzero (name : string) (a : Z) :
  authProto !! name = Some a -> a <> 0%Z.
Proof.
  unfold authProto. intros H.
  repeat (apply lookup_insert_Some in H as [[_ <-]|[_ H]];
          [vm_compute; discriminate|]).
  apply lookup_singleton_Some in H as [_ <-]. vm_compute; discriminate.
Qed.

(** ** Version dispatch *)

(** C8. A profile whose version tag is none of "1", "2", "2c", "3" is
    rejected with [ErrVersion]: no client is returned, nothing is logged,
    the engine is not called, and the variables shared with the v3
    closures are left as they were, whatever the v3 fields hold. *)
Theorem unknown_version_is_ErrVersion
    (Debug : bool) (Connect : gosnmp.GoSNMP -> option string)
    (o : operand_order) (p : Profile) :
  Version p <> "1" -> Version p <> "2" -> Version p <> "2c" ->
  Version p <> "3" ->
  call Debug Connect o p = (None, Some ErrVersion, []) /\
  forall s, NewClient Debug Connect o p s = (None, Some ErrVersion, s).
Proof.
  intros H1 H2 H2c H3.
  assert (forall s, NewClient Debug Connect o p s = (None, Some ErrVersion, s))
    as Hs.
  { intros s. open_profile p. run_call; known_tests; reflexivity. }
  split; [|exact Hs]. unfold call. rewrite Hs. reflexivity.
Qed.

Lemma unknown_version_is_ErrVersion_witness :
  call false connect_ok CallsThenReads ex_v4 = (None, Some ErrVersion, []) /\
  forall s,
    NewClient false connect_ok CallsThenReads ex_v4 s
      = (None, Some ErrVersion, s).
Proof.
  apply (unknown_version_is_ErrVersion false connect_ok CallsThenReads ex_v4);
    vm_compute; discriminate.
Defined.

(** C6. For version "1", "2" or "2c" the call builds a client whose
    community string is the profile's, unchanged (the empty string
    included), with no security parameters; "1" selects [Version1], "2"
    and "2c" both select [Version2c]; and the v3 fields play no part: the
    call with all of them blanked does the same. *)
Theorem community_versions_pass_through
    (Debug : bool) (Connect : gosnmp.GoSNMP -> option string)
    (o : operand_order) (p : Profile) :
  Version p = "1" \/ Version p = "2" \/ Version p = "2c" ->
  exists c,
    built Debug Connect o p c /\
    gosnmp.Community c = Community p /\
    gosnmp.SecurityParameters c = None /\
    (Version p = "1" -> gosnmp.Version c = gosnmp.Version1) /\
    (Version p = "2" \/ Version p = "2c" ->
       gosnmp.Version c = gosnmp.Version2c) /\
    call Debug Connect o (without_v3_fields p) = call Debug Connect o p.
Proof.
  intros Hv. open_profile p.
  destruct Hv as [-> | [-> | ->]]; run_call; known_tests; destruct Debug;
    (eexists; split; [reflexivity|]; repeat split; cbn;
     try reflexivity; intros; intuition discriminate).
Qed.

Lemma community_versions_pass_through_witness :
  exists c,
    built false connect_ok CallsThenReads ex_v2c c /\
    gosnmp.Community c = Community ex_v2c /\
    gosnmp.SecurityParameters c = None /\
    (Version ex_v2c = "1" -> gosnmp.Version c = gosnmp.Version1) /\
    (Version ex_v2c = "2" \/ Version ex_v2c = "2c" ->
       gosnmp.Version c = gosnmp.Version2c) /\
    call false connect_ok CallsThenReads (without_v3_fields ex_v2c)
      = call false connect_ok CallsThenReads ex_v2c.
Proof.
  apply (community_versions_pass_through false connect_ok CallsThenReads
           ex_v2c).
  right; right; reflexivity.
Defined.

(** ** Security levels of version 3 *)

(** C5. With version "3", level "NoAuthNoPriv" and a username, the call
    builds a client with message flags [NoAuthNoPriv] whose security
    parameters hold the username, [NoAuth] and [NoPriv] and no
    passphrase; the passphrases and algorithm names are not looked at:
    the call with all four blanked does the same. *)
Theorem NoAuthNoPriv_needs_only_a_username
    (Debug : bool) (Connect : gosnmp.GoSNMP -> option string)
    (o : operand_order) (p : Profile) :
  Version p = "3" -> SecLevel p = "NoAuthNoPriv" -> AuthUser p <> "" ->
  exists c,
    built Debug Connect o p c /\
    gosnmp.MsgFlags c = gosnmp.NoAuthNoPriv /\
    gosnmp.SecurityParameters c
      = Some {| gosnmp.UserName := AuthUser p;
                gosnmp.AuthenticationProtocol := gosnmp.NoAuth;
                gosnmp.AuthenticationPassphrase := "";
                gosnmp.PrivacyProtocol := gosnmp.NoPriv;
                gosnmp.PrivacyPassphrase := "" |} /\
    call Debug Connect o (without_secrets p) = call Debug Connect o p.
Proof.
  intros Hv Hl Hu. open_profile p. subst v lv.
  run_call; known_tests; destruct Debug;
    (eexists; split; [reflexivity|]; repeat split; reflexivity).
Qed.

Lemma NoAuthNoPriv_needs_only_a_username_witness :
  exists c,
    built false connect_ok CallsThenReads ex_NoAuthNoPriv c /\
    gosnmp.MsgFlags c = gosnmp.NoAuthNoPriv /\
    gosnmp.SecurityParameters c
      = Some {| gosnmp.UserName := AuthUser ex_NoAuthNoPriv;
                gosnmp.AuthenticationProtocol := gosnmp.NoAuth;
                gosnmp.AuthenticationPassphrase := "";
                gosnmp.PrivacyProtocol := gosnmp.NoPriv;
                gosnmp.PrivacyPassphrase := "" |} /\
    call false connect_ok CallsThenReads (without_secrets ex_NoAuthNoPriv)
      = call false connect_ok CallsThenReads ex_NoAuthNoPriv.
Proof.
  apply (NoAuthNoPriv_needs_only_a_username false connect_ok CallsThenReads
           ex_NoAuthNoPriv);
    [reflexivity | reflexivity | vm_compute; discriminate].
Defined.

(** C4. With version "3" and level "AuthNoPriv": an empty username is
    [ErrBadUser]; otherwise an empty auth passphrase is [ErrBadPassword],
    also when the auth algorithm name is unknown as well; otherwise an
    auth algorithm name missing from the table is [ErrBadProtocol];
    otherwise the call builds a client with message flags [AuthNoPriv]. *)
Theorem AuthNoPriv_validation
    (Debug : bool) (Connect : gosnmp.GoSNMP -> option string)
    (o : operand_order) (p : Profile) :
  Version p = "3" -> SecLevel p = "AuthNoPriv" ->
  (AuthUser p = "" -> rejected Debug Connect o p ErrBadUser) /\
  (AuthUser p <> "" -> AuthPass p = "" ->
     rejected Debug Connect o p ErrBadPassword) /\
  (AuthUser p <> "" -> AuthPass p = "" -> authProto !! AuthProto p = None ->
     rejected Debug Connect o p ErrBadPassword) /\
  (AuthUser p <> "" -> AuthPass p <> "" -> authProto !! AuthProto p = None ->
     rejected Debug Connect o p ErrBadProtocol) /\
  (AuthUser p <> "" -> AuthPass p <> "" ->
     is_Some (authProto !! AuthProto p) ->
     exists c, built Debug Connect o p c /\
               gosnmp.MsgFlags c = gosnmp.AuthNoPriv).
Proof.
  intros Hv Hl. open_profile p. subst v lv.
  split; [|split; [|split; [|split]]].
  - intros ->. run_call; known_tests; split; reflexivity.
  - intros Hu ->. run_call; known_tests; destruct o; split; reflexivity.
  - intros Hu -> _. run_call; known_tests; destruct o; split; reflexivity.
  - intros Hu Ha Hp. run_call; known_tests; destruct o; split; reflexivity.
  - intros Hu Ha [a Hp].
    run_call; known_tests; destruct o; destruct Debug;
      (eexists; split; reflexivity).
Qed.

Lemma AuthNoPriv_validation_witness :
  exists c, built false connect_ok CallsThenReads ex_AuthNoPriv c /\
            gosnmp.MsgFlags c = gosnmp.AuthNoPriv.
Proof.
  apply (AuthNoPriv_validation false connect_ok CallsThenReads ex_AuthNoPriv);
    [reflexivity | reflexivity | vm_compute; discriminate
    | vm_compute; discriminate | vm_compute; eauto].
Defined.

(** C2, as the code orders it.  With version "3" and level "AuthPriv": an
    empty username is [ErrBadUser]; otherwise an empty privacy passphrase
    is [ErrPrivacy]; otherwise a privacy algorithm name missing from the
    table is [ErrBadPassword]; otherwise an empty auth passphrase is
    [ErrBadPassword]; otherwise an auth algorithm name missing from the
    table is [ErrBadProtocol]; otherwise the call builds a client with
    message flags [AuthPriv]. *)
Theorem AuthPriv_validation
    (Debug : bool) (Connect : gosnmp.GoSNMP -> option string)
    (o : operand_order) (p : Profile) :
  Version p = "3" -> SecLevel p = "AuthPriv" ->
  (AuthUser p = "" -> rejected Debug Connect o p ErrBadUser) /\
  (AuthUser p <> "" -> PrivPass p = "" ->
     rejected Debug Connect o p ErrPrivacy) /\
  (AuthUser p <> "" -> PrivPass p <> "" -> privacy !! PrivProto p = None ->
     rejected Debug Connect o p ErrBadPassword) /\
  (AuthUser p <> "" -> PrivPass p <> "" ->
     is_Some (privacy !! PrivProto p) -> AuthPass p = "" ->
     rejected Debug Connect o p ErrBadPassword) /\
  (AuthUser p <> "" -> PrivPass p <> "" ->
     is_Some (privacy !! PrivProto p) -> AuthPass p <> "" ->
     authProto !! AuthProto p = None ->
     rejected Debug Connect o p ErrBadProtocol) /\
  (AuthUser p <> "" -> PrivPass p <> "" ->
     is_Some (privacy !! PrivProto p) -> AuthPass p <> "" ->
     is_Some (authProto !! AuthProto p) ->
     exists c, built Debug Connect o p c /\
               gosnmp.MsgFlags c = gosnmp.AuthPriv).
Proof.
  intros Hv Hl. open_profile p. subst v lv.
  split; [|split; [|split; [|split; [|split]]]].
  - intros ->. run_call; known_tests; split; reflexivity.
  - intros Hu ->. run_call; known_tests; split; reflexivity.
  - intros Hu Hpp Hq. run_call; known_tests; split; reflexivity.
  - intros Hu Hpp [q Hq] ->.
    run_call; known_tests; destruct o; split; reflexivity.
  - intros Hu Hpp [q Hq] Ha Hp.
    run_call; known_tests; destruct o; split; reflexivity.
  - intros Hu Hpp [q Hq] Ha [a Hp].
    run_call; known_tests; destruct o; destruct Debug;
      (eexists; split; reflexivity).
Qed.

Lemma AuthPriv_validation_witness :
  exists c, built false connect_ok CallsThenReads ex_AuthPriv c /\
            gosnmp.MsgFlags c = gosnmp.AuthPriv.
Proof.
  apply (AuthPriv_validation false connect_ok CallsThenReads ex_AuthPriv);
    [reflexivity | reflexivity | vm_compute; discriminate
    | vm_compute; discriminate | vm_compute; eauto
    | vm_compute; discriminate | vm_compute; eauto].
Defined.

(** C2 as stated fails: with a username, no auth passphrase and no privacy
    passphrase, the claim's order gives [ErrBadPassword]; the call checks
    the privacy passphrase first and returns [ErrPrivacy]. *)
Lemma AuthPriv_privacy_checked_before_auth :
  Version ex_AuthPriv_no_passphrases = "3" /\
  SecLevel ex_AuthPriv_no_passphrases = "AuthPriv" /\
  AuthUser ex_AuthPriv_no_passphrases <> "" /\
  AuthPass ex_AuthPriv_no_passphrases = "" /\
  (forall o,
     returned_error false connect_ok o ex_AuthPriv_no_passphrases
       = Some ErrPrivacy) /\
  (forall o,
     returned_error false connect_ok o ex_AuthPriv_no_passphrases
       <> Some ErrBadPassword).
Proof.
  split; [reflexivity|]. split; [reflexivity|].
  split; [vm_compute; discriminate|]. split; [reflexivity|].
  split; intros o; destruct o; vm_compute; first [reflexivity | discriminate].
Qed.

(** C3, as the code orders it.  With version "3", a username and a level
    tag that is none of "NoAuthNoPriv", "AuthNoPriv", "AuthPriv", the call
    is rejected with [ErrLevel] whatever the passphrases and algorithm
    names hold; without a username it is rejected with [ErrBadUser], the
    username being checked before the level. *)
Theorem unknown_level_is_ErrLevel
    (Debug : bool) (Connect : gosnmp.GoSNMP -> option string)
    (o : operand_order) (p : Profile) :
  Version p = "3" ->
  SecLevel p <> "NoAuthNoPriv" -> SecLevel p <> "AuthNoPriv" ->
  SecLevel p <> "AuthPriv" ->
  (AuthUser p <> "" -> rejected Debug Connect o p ErrLevel) /\
  (AuthUser p = "" -> rejected Debug Connect o p ErrBadUser).
Proof.
  intros Hv H1 H2 H3. open_profile p. subst v.
  split.
  - intros Hu. run_call; known_tests; split; reflexivity.
  - intros ->. run_call; known_tests; split; reflexivity.
Qed.

Lemma unknown_level_is_ErrLevel_witness :
  rejected false connect_ok CallsThenReads ex_bad_level ErrLevel.
Proof.
  apply (unknown_level_is_ErrLevel false connect_ok CallsThenReads
           ex_bad_level);
    try reflexivity; vm_compute; discriminate.
Defined.

(** C3 as stated fails: with an unknown level tag and no username the call
    returns [ErrBadUser], not [ErrLevel]. *)
Lemma unknown_level_without_username :
  Version ex_bad_level_no_user = "3" /\
  SecLevel ex_bad_level_no_user <> "NoAuthNoPriv" /\
  SecLevel ex_bad_level_no_user <> "AuthNoPriv" /\
  SecLevel ex_bad_level_no_user <> "AuthPriv" /\
  (forall o,
     returned_error false connect_ok o ex_bad_level_no_user
       = Some ErrBadUser) /\
  (forall o,
     returned_error false connect_ok o ex_bad_level_no_user
       <> Some ErrLevel).
Proof.
  split; [reflexivity|]. do 3 (split; [vm_compute; discriminate|]).
  split; intros o; destruct o; vm_compute; first [reflexivity | discriminate].
Qed.

(** C1. With the toolchain's order of evaluation, a version "3" profile
    that passes validation at level "AuthNoPriv" or "AuthPriv" gives a
    client whose security parameters carry, as authentication protocol,
    the identifier the authentication table holds for the profile's auth
    algorithm name. *)
Theorem auth_protocol_is_resolved
    (Debug : bool) (Connect : gosnmp.GoSNMP -> option string)
    (p : Profile) (c : gosnmp.GoSNMP) :
  Version p = "3" ->
  SecLevel p = "AuthNoPriv" \/ SecLevel p = "AuthPriv" ->
  returned_client Debug Connect CallsThenReads p = Some c ->
  exists usm a,
    gosnmp.SecurityParameters c = Some usm /\
    authProto !! AuthProto p = Some a /\
    gosnmp.AuthenticationProtocol usm = a.
Proof.
  intros Hv Hl H. open_profile p. subst v. revert H.
  destruct Hl as [-> | ->]; run_call; known_tests; all_paths; intros H;
    try discriminate H; injection H as <-;
    (eexists; eexists; split; [reflexivity|split; reflexivity]).
Qed.

Lemma auth_protocol_is_resolved_witness :
  exists usm a,
    gosnmp.SecurityParameters
      {| gosnmp.Target := "192.0.2.1"; gosnmp.Port := 161;
         gosnmp.Community := ""; gosnmp.Version := gosnmp.Version3;
         gosnmp.Timeout := 5000000000; gosnmp.Retries := 2;
         gosnmp.Logger := None; gosnmp.MsgFlags := gosnmp.AuthPriv;
         gosnmp.SecurityModel := gosnmp.UserSecurityModel;
         gosnmp.SecurityParameters :=
           Some {| gosnmp.UserName := "admin";
                   gosnmp.AuthenticationProtocol := gosnmp.SHA;
                   gosnmp.AuthenticationPassphrase := "secret";
                   gosnmp.PrivacyProtocol := gosnmp.AES;
                   gosnmp.PrivacyPassphrase := "private" |} |}
      = Some usm /\
    authProto !! AuthProto ex_AuthPriv = Some a /\
    gosnmp.AuthenticationProtocol usm = a.
Proof.
  apply (auth_protocol_is_resolved false connect_ok ex_AuthPriv);
    [reflexivity | right; reflexivity | vm_compute; reflexivity].
Defined.

(** X18.  Under the other order the literal is built before [authCheck] runs and
    the same profiles give a client whose authentication protocol is the
    zero value, which no name of the table maps to. *)
Lemma reads_in_place_leave_auth_protocol_zero
    (Debug : bool) (Connect : gosnmp.GoSNMP -> option string)
    (p : Profile) (c : gosnmp.GoSNMP) :
  Version p = "3" ->
  SecLevel p = "AuthNoPriv" \/ SecLevel p = "AuthPriv" ->
  returned_client Debug Connect ReadsInPlace p = Some c ->
  exists usm,
    gosnmp.SecurityParameters c = Some usm /\
    gosnmp.AuthenticationProtocol usm = 0%Z /\
    authProto !! AuthProto p <> Some 0%Z.
Proof.
  intros Hv Hl H. open_profile p. subst v. revert H.
  destruct Hl as [-> | ->]; run_call; known_tests; all_paths; intros H;
    try discriminate H; injection H as <-;
    (eexists; split; [reflexivity|split; [reflexivity|]]);
    intros E; injection E as ->;
    match goal with
    | E : authProto !! _ = Some _ |- _ => exact (authProto_nonzero _ _ E eq_refl)
    end.
Qed.

(** ** Port, timeout and retry count *)

(** C7, within the range of the client's 16-bit port.  A returned client
    has port 161 when the profile's port is 0, and the profile's port
    itself when that lies in 1..65535; any other non-zero port is cut to
    its low sixteen bits by the conversion [uint16]. *)
Theorem port_default_or_preserved
    (Debug : bool) (Connect : gosnmp.GoSNMP -> option string)
    (o : operand_order) (p : Profile) (c : gosnmp.GoSNMP) :
  returned_client Debug Connect o p = Some c ->
  (Port p = 0 -> gosnmp.Port c = 161)%Z /\
  (0 < Port p < 65536 -> gosnmp.Port c = Port p)%Z /\
  (Port p <> 0 -> gosnmp.Port c = Port p mod 2 ^ 16)%Z.
Proof.
  intros H. apply returned_client_fields in H as (_ & HP & _).
  rewrite HP. split; [|split].
  - intros ->. reflexivity.
  - intros R. destruct (Z.eqb_spec (Port p) 0); [lia|].
    apply uint16_small. lia.
  - intros N. destruct (Z.eqb_spec (Port p) 0); [contradiction|].
    reflexivity.
Qed.

Lemma port_default_or_preserved_witness :
  gosnmp.Port
    {| gosnmp.Target := "192.0.2.1"; gosnmp.Port := 161;
       gosnmp.Community := "public"; gosnmp.Version := gosnmp.Version2c;
       gosnmp.Timeout := 5000000000; gosnmp.Retries := 2;
       gosnmp.Logger := None; gosnmp.MsgFlags := 0;
       gosnmp.SecurityModel := 0;
       gosnmp.SecurityParameters := None |} = 161%Z.
Proof.
  apply (port_default_or_preserved false connect_ok CallsThenReads ex_v2c);
    vm_compute; reflexivity.
Defined.

(** C7 as stated fails: port 70000 is not zero and the client's port is
    4464. *)
Lemma port_70000_is_truncated :
  exists c,
    returned_client false connect_ok CallsThenReads ex_port_70000 = Some c /\
    Port ex_port_70000 = 70000%Z /\
    gosnmp.Port c = 4464%Z /\
    gosnmp.Port c <> Port ex_port_70000.
Proof.
  eexists. split; [vm_compute; reflexivity|].
  split; [reflexivity|]. split; [reflexivity|]. vm_compute; discriminate.
Qed.

(** C10, within the range of [time.Duration].  A returned client has the
    profile's retry count, and as timeout the profile's timeout times
    [time.Second] when that product fits in 64 signed bits, which it does
    for timeouts up to 9223372036 in absolute value; in general the
    timeout is that product wrapped to 64 signed bits. *)
Theorem timeout_in_seconds_retries_copied
    (Debug : bool) (Connect : gosnmp.GoSNMP -> option string)
    (o : operand_order) (p : Profile) (c : gosnmp.GoSNMP) :
  returned_client Debug Connect o p = Some c ->
  gosnmp.Retries c = Retries p /\
  (- 9223372036 <= Timeout p <= 9223372036 ->
     gosnmp.Timeout c = Timeout p * time.Second)%Z /\
  gosnmp.Timeout c = int64 (Timeout p * time.Second).
Proof.
  intros H. apply returned_client_fields in H as (_ & _ & HT & HR).
  split; [exact HR|]. split; [|exact HT].
  intros R. rewrite HT. apply int64_small. unfold time.Second. lia.
Qed.

Lemma timeout_in_seconds_retries_copied_witness :
  gosnmp.Retries
    {| gosnmp.Target := "192.0.2.1"; gosnmp.Port := 161;
       gosnmp.Community := "public"; gosnmp.Version := gosnmp.Version2c;
       gosnmp.Timeout := 5000000000; gosnmp.Retries := 2;
       gosnmp.Logger := None; gosnmp.MsgFlags := 0;
       gosnmp.SecurityModel := 0;
       gosnmp.SecurityParameters := None |} = Retries ex_v2c.
Proof.
  apply (timeout_in_seconds_retries_copied false connect_ok CallsThenReads
           ex_v2c).
  vm_compute; reflexivity.
Defined.

(** C10 as stated fails at 64-bit [int]: a timeout of 9223372037 seconds
    overflows the duration, and the client's timeout is negative. *)
Lemma long_timeout_wraps :
  exists c,
    returned_client false connect_ok CallsThenReads ex_long_timeout
      = Some c /\
    Timeout ex_long_timeout = 9223372037%Z /\
    gosnmp.Timeout c = (-9223372036709551616)%Z /\
    gosnmp.Timeout c <> (Timeout ex_long_timeout * time.Second)%Z.
Proof.
  eexists. split; [vm_compute; reflexivity|].
  split; [reflexivity|]. split; [reflexivity|]. vm_compute; discriminate.
Qed.

(** ** Failed validation *)

(** C9. When the call returns one of the six sentinel errors, it returns
    no client with it, and the engine's [Connect] was not called: no
    client was handed out either way. *)
Theorem validation_failure_hands_out_nothing
    (Debug : bool) (Connect : gosnmp.GoSNMP -> option string)
    (o : operand_order) (p : Profile) (e : error) :
  returned_error Debug Connect o p = Some e -> sentinel e = true ->
  returned_client Debug Connect o p = None /\
  forall c, ConnectCall c ∉ events Debug Connect o p.
Proof.
  intros He Hs.
  destruct (call_outcome Debug Connect o p)
    as [(e' & l & E & _)|(c' & B & _)];
    unfold returned_error, returned_client, events in *.
  - rewrite E. cbn [fst snd]. split; [reflexivity|].
    intros c Hin. apply list_elem_of_fmap in Hin as (x & Hx & _).
    discriminate Hx.
  - unfold built in B. rewrite B in He. cbn [fst snd] in He.
    destruct (Connect c'); cbn in He; [|discriminate].
    injection He as <-. discriminate Hs.
Qed.

Lemma validation_failure_hands_out_nothing_witness :
  returned_client false connect_ok CallsThenReads ex_AuthPriv_no_passphrases
    = None /\
  forall c,
    ConnectCall c
      ∉ events false connect_ok CallsThenReads ex_AuthPriv_no_passphrases.
Proof.
  apply (validation_failure_hands_out_nothing false connect_ok CallsThenReads
           ex_AuthPriv_no_passphrases ErrPrivacy);
    reflexivity.
Defined.

(** ** Beyond the claims: when a call is accepted, and what each error means *)

Lemma len_ge_1_inv (s : string) : (len s <? 1)%Z = false -> s <> "".
Proof. intros H ->. vm_compute in H. discriminate. Qed.

(** Turn the outcomes of the tests into facts about the profile. *)
Ltac tests_to_props :=
  repeat match goal with
  | H : (if ?x then _ else _) = _ |- _ => destruct x eqn:?
  | H : String.eqb _ _ = true |- _ => apply String.eqb_eq in H
  | H : String.eqb _ _ = false |- _ => apply String.eqb_neq in H
  | H : (len _ <? 1)%Z = true |- _ => apply len_lt_1 in H
  | H : (len _ <? 1)%Z = false |- _ => apply len_ge_1_inv in H
  | H : true = false |- _ => discriminate H
  | H : false = true |- _ => discriminate H
  end.

(** Every path of a call, with its tests as facts. *)
Ltac every_path p :=
  open_profile p; run_call; all_paths; tests_to_props; subst;
  cbn [fst snd].

(** X1.  A call returns a client exactly when the version is "1", "2" or "2c",
    or the version is "3", the username is not empty and the level is
    "NoAuthNoPriv", or "AuthNoPriv" with an auth passphrase and a known
    auth algorithm name, or "AuthPriv" with both passphrases and both
    algorithm names known. *)
Theorem client_returned_iff
    (Debug : bool) (Connect : gosnmp.GoSNMP -> option string)
    (o : operand_order) (p : Profile) :
  is_Some (returned_client Debug Connect o p) <->
  Version p = "1" \/ Version p = "2" \/ Version p = "2c" \/
  (Version p = "3" /\ AuthUser p <> "" /\
   (SecLevel p = "NoAuthNoPriv" \/
    (SecLevel p = "AuthNoPriv" /\ AuthPass p <> "" /\
     is_Some (authProto !! AuthProto p)) \/
    (SecLevel p = "AuthPriv" /\ PrivPass p <> "" /\
     is_Some (privacy !! PrivProto p) /\ AuthPass p <> "" /\
     is_Some (authProto !! AuthProto p)))).
Proof.
  every_path p.
  all: rewrite ?is_Some_alt.
  all: try (split; [intros _|intros _; exact I]; tauto).
  all: try (split; [intros []|]; intuition congruence).
Qed.

(** Settle the engine's answer on the paths that reach it. *)
Ltac engine_answer :=
  repeat match goal with
  | |- context [ErrConnect <$> ?r] =>
      destruct r; cbn [fmap option_fmap option_map]
  end.

(** X2.  [ErrVersion] is returned exactly for a version tag that is none of
    "1", "2", "2c", "3". *)
Theorem ErrVersion_iff
    (Debug : bool) (Connect : gosnmp.GoSNMP -> option string)
    (o : operand_order) (p : Profile) :
  returned_error Debug Connect o p = Some ErrVersion <->
  Version p <> "1" /\ Version p <> "2" /\ Version p <> "2c" /\
  Version p <> "3".
Proof.
  every_path p; engine_answer;
    (split; [intros E; try discriminate E|intros N]); intuition congruence.
Qed.

(** X3.  [ErrBadUser] is returned exactly for version "3" with an empty
    username, whatever the level and the other fields. *)
Theorem ErrBadUser_iff
    (Debug : bool) (Connect : gosnmp.GoSNMP -> option string)
    (o : operand_order) (p : Profile) :
  returned_error Debug Connect o p = Some ErrBadUser <->
  Version p = "3" /\ AuthUser p = "".
Proof.
  every_path p; engine_answer;
    (split; [intros E; try discriminate E|intros N]); intuition congruence.
Qed.

(** X4.  [ErrLevel] is returned exactly for version "3" with a username and a
    level tag that is none of "NoAuthNoPriv", "AuthNoPriv", "AuthPriv". *)
Theorem ErrLevel_iff
    (Debug : bool) (Connect : gosnmp.GoSNMP -> option string)
    (o : operand_order) (p : Profile) :
  returned_error Debug Connect o p = Some ErrLevel <->
  Version p = "3" /\ AuthUser p <> "" /\
  SecLevel p <> "NoAuthNoPriv" /\ SecLevel p <> "AuthNoPriv" /\
  SecLevel p <> "AuthPriv".
Proof.
  every_path p; engine_answer;
    (split; [intros E; try discriminate E|intros N]); intuition congruence.
Qed.

(** X5.  [ErrPrivacy] is returned exactly for version "3" with a username,
    level "AuthPriv" and an empty privacy passphrase. *)
Theorem ErrPrivacy_iff
    (Debug : bool) (Connect : gosnmp.GoSNMP -> option string)
    (o : operand_order) (p : Profile) :
  returned_error Debug Connect o p = Some ErrPrivacy <->
  Version p = "3" /\ AuthUser p <> "" /\ SecLevel p = "AuthPriv" /\
  PrivPass p = "".
Proof.
  every_path p; engine_answer;
    (split; [intros E; try discriminate E|intros N]); intuition congruence.
Qed.

(** X6.  [ErrBadProtocol] is returned exactly for version "3" with a username,
    an auth passphrase and an auth algorithm name missing from the table,
    at level "AuthNoPriv", or at level "AuthPriv" once the privacy
    passphrase and the privacy algorithm name have passed. *)
Theorem ErrBadProtocol_iff
    (Debug : bool) (Connect : gosnmp.GoSNMP -> option string)
    (o : operand_order) (p : Profile) :
  returned_error Debug Connect o p = Some ErrBadProtocol <->
  Version p = "3" /\ AuthUser p <> "" /\ AuthPass p <> "" /\
  authProto !! AuthProto p = None /\
  (SecLevel p = "AuthNoPriv" \/
   (SecLevel p = "AuthPriv" /\ PrivPass p <> "" /\
    is_Some (privacy !! PrivProto p))).
Proof.
  every_path p; engine_answer; rewrite ?is_Some_alt;
    (split; [intros E; try discriminate E|intros N]); intuition congruence.
Qed.

(** X7.  [ErrBadPassword] has two causes.  It is returned exactly for version
    "3" with a username and either level "AuthNoPriv" with an empty auth
    passphrase, or level "AuthPriv" with a privacy passphrase and then a
    privacy algorithm name missing from the table or an empty auth
    passphrase. *)
Theorem ErrBadPassword_iff
    (Debug : bool) (Connect : gosnmp.GoSNMP -> option string)
    (o : operand_order) (p : Profile) :
  returned_error Debug Connect o p = Some ErrBadPassword <->
  Version p = "3" /\ AuthUser p <> "" /\
  ((SecLevel p = "AuthNoPriv" /\ AuthPass p = "") \/
   (SecLevel p = "AuthPriv" /\ PrivPass p <> "" /\
    (privacy !! PrivProto p = None \/ AuthPass p = ""))).
Proof.
  every_path p; engine_answer;
    (split; [intros E; try discriminate E|intros N]); intuition congruence.
Qed.

(** ** Beyond the claims: what a call logs and hands to the engine *)

Lemma append_assoc (a b c : string) : (a ++ b) ++ c = a ++ (b ++ c).
Proof.
  induction a as [|x a IH]; [reflexivity|].
  change (String x ((a ++ b) ++ c) = String x (a ++ (b ++ c))).
  now rewrite IH.
Qed.

(** X8.  A rejection with [ErrVersion] logs nothing; a rejection with any other
    sentinel error logs exactly one line, and that line ends with the
    profile's host. *)
Theorem rejection_logs_one_line_naming_the_host
    (Debug : bool) (Connect : gosnmp.GoSNMP -> option string)
    (o : operand_order) (p : Profile) (e : error) :
  returned_error Debug Connect o p = Some e -> sentinel e = true ->
  (e = ErrVersion /\ events Debug Connect o p = []) \/
  (e <> ErrVersion /\
   exists pre, events Debug Connect o p = [LogPrintf (pre ++ Host p)]).
Proof.
  revert e. every_path p; engine_answer; intros e [= <-] Hs;
    try discriminate Hs;
    first
      [ left; split; reflexivity
      | right; split; [discriminate|];
        match goal with
        | |- exists pre, [LogPrintf (?a ++ ?x ++ ?b ++ ?h)] = _ =>
            exists (a ++ x ++ b); now rewrite !append_assoc
        | |- exists pre, [LogPrintf (?a ++ ?h)] = _ =>
            exists a; reflexivity
        end ].
Qed.

Lemma rejection_logs_one_line_naming_the_host_witness :
  (ErrPrivacy = ErrVersion /\
   events false connect_ok CallsThenReads ex_AuthPriv_no_passphrases = []) \/
  (ErrPrivacy <> ErrVersion /\
   exists pre,
     events false connect_ok CallsThenReads ex_AuthPriv_no_passphrases
       = [LogPrintf (pre ++ Host ex_AuthPriv_no_passphrases)]).
Proof.
  apply (rejection_logs_one_line_naming_the_host false connect_ok
           CallsThenReads ex_AuthPriv_no_passphrases ErrPrivacy);
    reflexivity.
Defined.

(** X9.  A call that returns a client logged nothing and called the engine's
    [Connect] exactly once, on the client it returns; the error it returns
    is the engine's answer, and the client is returned also when the
    engine fails. *)
Theorem engine_called_once_on_the_returned_client
    (Debug : bool) (Connect : gosnmp.GoSNMP -> option string)
    (o : operand_order) (p : Profile) (c : gosnmp.GoSNMP) :
  returned_client Debug Connect o p = Some c ->
  events Debug Connect o p = [ConnectCall c] /\
  (Connect c = None -> returned_error Debug Connect o p = None) /\
  (forall msg, Connect c = Some msg ->
     returned_error Debug Connect o p = Some (ErrConnect msg)).
Proof.
  intros H. apply returned_client_built in H. unfold built in H.
  unfold events, returned_error. rewrite H. cbn [fst snd].
  split; [reflexivity|]. split.
  - intros ->. reflexivity.
  - intros msg ->. reflexivity.
Qed.


(** X11.  A client returned for version "3" has version [Version3], the
    user-based security model and security parameters; its target is the
    profile's host and its community string stays empty, the profile's
    community string not being copied. *)
Theorem v3_client_shape
    (Debug : bool) (Connect : gosnmp.GoSNMP -> option string)
    (o : operand_order) (p : Profile) (c : gosnmp.GoSNMP) :
  Version p = "3" -> returned_client Debug Connect o p = Some c ->
  gosnmp.Version c = gosnmp.Version3 /\
  gosnmp.SecurityModel c = gosnmp.UserSecurityModel /\
  is_Some (gosnmp.SecurityParameters c) /\
  gosnmp.Target c = Host p /\
  gosnmp.Community c = "".
Proof.
  revert c. every_path p; intros c Hv [= <-]; try discriminate Hv;
    cbn; rewrite is_Some_alt; tauto.
Qed.

Lemma engine_called_once_on_the_returned_client_witness :
  exists c,
    events false connect_refused CallsThenReads ex_v2c = [ConnectCall c] /\
    (connect_refused c = None ->
       returned_error false connect_refused CallsThenReads ex_v2c = None) /\
    (forall msg, connect_refused c = Some msg ->
       returned_error false connect_refused CallsThenReads ex_v2c
         = Some (ErrConnect msg)).
Proof.
  eexists.
  apply (engine_called_once_on_the_returned_client false connect_refused
           CallsThenReads ex_v2c).
  vm_compute; reflexivity.
Defined.

Lemma v3_client_shape_witness :
  exists c,
    returned_client false connect_ok CallsThenReads ex_AuthPriv = Some c /\
    gosnmp.Version c = gosnmp.Version3 /\
    gosnmp.SecurityModel c = gosnmp.UserSecurityModel /\
    is_Some (gosnmp.SecurityParameters c) /\
    gosnmp.Target c = Host ex_AuthPriv /\
    gosnmp.Community c = "".
Proof.
  eexists. split; [vm_compute; reflexivity|].
  apply (v3_client_shape false connect_ok CallsThenReads ex_AuthPriv);
    [reflexivity | vm_compute; reflexivity].
Defined.

(** ** Beyond the claims: the security parameters of each level *)

(** X12.  At level "AuthPriv" a returned client carries the profile's username
    and both passphrases, neither of them empty, and as privacy protocol
    the identifier the privacy table holds for the profile's privacy
    algorithm name. *)
Theorem AuthPriv_parameters
    (Debug : bool) (Connect : gosnmp.GoSNMP -> option string)
    (o : operand_order) (p : Profile) (c : gosnmp.GoSNMP) :
  Version p = "3" -> SecLevel p = "AuthPriv" ->
  returned_client Debug Connect o p = Some c ->
  exists usm q,
    gosnmp.SecurityParameters c = Some usm /\
    privacy !! PrivProto p = Some q /\
    gosnmp.PrivacyProtocol usm = q /\
    gosnmp.PrivacyPassphrase usm = PrivPass p /\
    gosnmp.AuthenticationPassphrase usm = AuthPass p /\
    gosnmp.UserName usm = AuthUser p /\
    PrivPass p <> "" /\ AuthPass p <> "".
Proof.
  intros Hv Hl H. open_profile p. subst v lv. revert H.
  run_call; known_tests; all_paths; tests_to_props; intros H;
    try discriminate H; injection H as <-;
    (eexists; eexists; split; [reflexivity|]; repeat split; assumption).
Qed.

Lemma AuthPriv_parameters_witness :
  exists c usm q,
    returned_client false connect_ok CallsThenReads ex_AuthPriv = Some c /\
    gosnmp.SecurityParameters c = Some usm /\
    privacy !! PrivProto ex_AuthPriv = Some q /\
    gosnmp.PrivacyProtocol usm = q /\
    gosnmp.PrivacyPassphrase usm = PrivPass ex_AuthPriv /\
    gosnmp.AuthenticationPassphrase usm = AuthPass ex_AuthPriv /\
    gosnmp.UserName usm = AuthUser ex_AuthPriv /\
    PrivPass ex_AuthPriv <> "" /\ AuthPass ex_AuthPriv <> "".
Proof.
  eexists.
  destruct (AuthPriv_parameters false connect_ok CallsThenReads ex_AuthPriv
              _ eq_refl eq_refl eq_refl) as (usm & q & H).
  exists usm, q. split; [reflexivity | exact H].
Defined.

(** X13.  At level "AuthNoPriv" a returned client carries the profile's username
    and auth passphrase, [NoPriv] as privacy protocol and no privacy
    passphrase; the profile's privacy passphrase and privacy algorithm
    name play no part: the call with both blanked does the same. *)
Theorem AuthNoPriv_parameters
    (Debug : bool) (Connect : gosnmp.GoSNMP -> option string)
    (o : operand_order) (p : Profile) (c : gosnmp.GoSNMP) :
  Version p = "3" -> SecLevel p = "AuthNoPriv" ->
  returned_client Debug Connect o p = Some c ->
  (exists usm,
     gosnmp.SecurityParameters c = Some usm /\
     gosnmp.PrivacyProtocol usm = gosnmp.NoPriv /\
     gosnmp.PrivacyPassphrase usm = "" /\
     gosnmp.AuthenticationPassphrase usm = AuthPass p /\
     gosnmp.UserName usm = AuthUser p) /\
  call Debug Connect o (without_privacy p) = call Debug Connect o p.
Proof.
  intros Hv Hl H. open_profile p. subst v lv. revert H.
  unfold without_privacy.
  run_call; known_tests; all_paths; intros H;
    try discriminate H; injection H as <-;
    (split; [eexists; repeat split|]; reflexivity).
Qed.

Lemma AuthNoPriv_parameters_witness :
  exists c,
    returned_client false connect_ok CallsThenReads ex_AuthNoPriv = Some c /\
    (exists usm,
       gosnmp.SecurityParameters c = Some usm /\
       gosnmp.PrivacyProtocol usm = gosnmp.NoPriv /\
       gosnmp.PrivacyPassphrase usm = "" /\
       gosnmp.AuthenticationPassphrase usm = AuthPass ex_AuthNoPriv /\
       gosnmp.UserName usm = AuthUser ex_AuthNoPriv) /\
    call false connect_ok CallsThenReads (without_privacy ex_AuthNoPriv)
      = call false connect_ok CallsThenReads ex_AuthNoPriv.
Proof.
  eexists. split; [vm_compute; reflexivity|].
  apply (AuthNoPriv_parameters false connect_ok CallsThenReads ex_AuthNoPriv);
    [reflexivity | reflexivity | vm_compute; reflexivity].
Defined.

(** ** Beyond the claims: numbers, order of evaluation, the closures *)

(** X14.  The numbers of a returned client fit the engine's types: the port lies
    in 0..65535 and the timeout in the signed 64-bit range.  The default
    does not keep the port away from zero: the client's port is 0 exactly
    when the profile's port is a non-zero multiple of 65536. *)
Theorem client_numbers_fit_their_types
    (Debug : bool) (Connect : gosnmp.GoSNMP -> option string)
    (o : operand_order) (p : Profile) (c : gosnmp.GoSNMP) :
  returned_client Debug Connect o p = Some c ->
  (0 <= gosnmp.Port c < 2 ^ 16)%Z /\
  (- 2 ^ 63 <= gosnmp.Timeout c < 2 ^ 63)%Z /\
  (gosnmp.Port c = 0 <-> Port p <> 0 /\ Port p mod 2 ^ 16 = 0)%Z.
Proof.
  intros H. apply returned_client_fields in H as (_ & HP & HT & _).
  rewrite HP, HT. unfold uint16, int64, defaultPort.
  pose proof (Z.mod_pos_bound (Timeout p * time.Second + 2 ^ 63) (2 ^ 64)
                ltac:(lia)).
  destruct (Z.eqb_spec (Port p) 0) as [E|N].
  - rewrite E. split; [vm_compute; split; [discriminate|reflexivity]|].
    split; [lia|]. split; [vm_compute; discriminate|intros [N _]; lia].
  - pose proof (Z.mod_pos_bound (Port p) (2 ^ 16) ltac:(lia)).
    split; [lia|]. split; [lia|]. tauto.
Qed.

Lemma client_numbers_fit_their_types_witness :
  exists c,
    returned_client false connect_ok CallsThenReads ex_port_65536 = Some c /\
    (0 <= gosnmp.Port c < 2 ^ 16)%Z /\
    (- 2 ^ 63 <= gosnmp.Timeout c < 2 ^ 63)%Z /\
    (gosnmp.Port c = 0 <->
     Port ex_port_65536 <> 0 /\ Port ex_port_65536 mod 2 ^ 16 = 0)%Z.
Proof.
  eexists. split; [vm_compute; reflexivity|].
  apply (client_numbers_fit_their_types false connect_ok CallsThenReads
           ex_port_65536).
  vm_compute; reflexivity.
Defined.

(** X15.  A rejected call does not depend on the order in which the operands of
    the closures' [return] statements are evaluated: under either order
    it returns the same error and logs the same line. *)
Theorem rejection_independent_of_operand_order
    (Debug : bool) (Connect : gosnmp.GoSNMP -> option string)
    (o o' : operand_order) (p : Profile) :
  returned_client Debug Connect o p = None ->
  call Debug Connect o' p = call Debug Connect o p.
Proof.
  open_profile p. destruct o, o'; run_call; all_paths; intros H;
    try discriminate H; reflexivity.
Qed.

Lemma rejection_independent_of_operand_order_witness :
  call false connect_ok ReadsInPlace ex_AuthPriv_no_passphrases
    = call false connect_ok CallsThenReads ex_AuthPriv_no_passphrases.
Proof.
  apply (rejection_independent_of_operand_order false connect_ok
           CallsThenReads ReadsInPlace ex_AuthPriv_no_passphrases).
  reflexivity.
Defined.

(** X16.  [authCheck], run on any values of the shared variables, returns [nil]
    exactly when the auth passphrase is not empty and the auth algorithm
    name is in the table; it then leaves the table's identifier in
    [aProto] and logs nothing.  With an empty passphrase it leaves
    [aProto] as it was; with an unknown name it resets [aProto] to the
    zero value. *)
Theorem authCheck_effect (p : Profile) (s : frame) :
  (fst (authCheck p s) = None <->
   AuthPass p <> "" /\ is_Some (authProto !! AuthProto p)) /\
  (forall a, AuthPass p <> "" -> authProto !! AuthProto p = Some a ->
     aProto (snd (authCheck p s)) = a /\
     trace (snd (authCheck p s)) = trace s) /\
  (AuthPass p = "" ->
     fst (authCheck p s) = Some ErrBadPassword /\
     aProto (snd (authCheck p s)) = aProto s) /\
  (AuthPass p <> "" -> authProto !! AuthProto p = None ->
     fst (authCheck p s) = Some ErrBadProtocol /\
     aProto (snd (authCheck p s)) = 0%Z).
Proof.
  open_profile p. destruct s as [k a0 q0 m0 t0].
  run_go. all_paths; tests_to_props; subst; cbn [fst snd];
    rewrite ?is_Some_alt;
    (split; [split; [intros E; try discriminate E|]; intuition congruence|]);
    (split; [intros a' Ha [= <-] || intros a' Ha [=]; try contradiction;
             split; reflexivity|]);
    (split; intros; try contradiction; try discriminate;
     try (split; reflexivity)).
Qed.

(** X17.  [v3auth], run on any values of the shared variables, never returns a
    [nil] error with [nil] parameters: without an error it returns
    parameters, has logged nothing, and has left in [msgFlags] the flags
    of the profile's level, which is then one of the three known ones. *)
Theorem v3auth_without_error
    (o : operand_order) (p : Profile) (s s' : frame)
    (usm : option gosnmp.UsmSecurityParameters) :
  v3auth o p s = (usm, None, s') ->
  is_Some usm /\ trace s' = trace s /\
  ((SecLevel p = "NoAuthNoPriv" /\ msgFlags s' = gosnmp.NoAuthNoPriv) \/
   (SecLevel p = "AuthNoPriv" /\ msgFlags s' = gosnmp.AuthNoPriv) \/
   (SecLevel p = "AuthPriv" /\ msgFlags s' = gosnmp.AuthPriv)).
Proof.
  open_profile p. destruct s as [k a0 q0 m0 t0].
  run_go. all_paths; tests_to_props; intros H;
    try discriminate H; injection H as <- <-;
    cbn [trace msgFlags]; rewrite is_Some_alt; tauto.
Qed.

Lemma v3auth_without_error_witness :
  is_Some (fst (fst (v3auth CallsThenReads ex_AuthPriv frame0))) /\
  trace (snd (v3auth CallsThenReads ex_AuthPriv frame0)) = trace frame0 /\
  ((SecLevel ex_AuthPriv = "NoAuthNoPriv" /\
    msgFlags (snd (v3auth CallsThenReads ex_AuthPriv frame0))
      = gosnmp.NoAuthNoPriv) \/
   (SecLevel ex_AuthPriv = "AuthNoPriv" /\
    msgFlags (snd (v3auth CallsThenReads ex_AuthPriv frame0))
      = gosnmp.AuthNoPriv) \/
   (SecLevel ex_AuthPriv = "AuthPriv" /\
    msgFlags (snd (v3auth CallsThenReads ex_AuthPriv frame0))
      = gosnmp.AuthPriv)).
Proof.
  apply (v3auth_without_error CallsThenReads ex_AuthPriv frame0).
  vm_compute; reflexivity.
Defined.

Lemma reads_in_place_leave_auth_protocol_zero_witness :
  exists c usm,
    returned_client false connect_ok ReadsInPlace ex_AuthNoPriv = Some c /\
    gosnmp.SecurityParameters c = Some usm /\
    gosnmp.AuthenticationProtocol usm = 0%Z /\
    authProto !! AuthProto ex_AuthNoPriv <> Some 0%Z.
Proof.
  eexists.
  destruct (reads_in_place_leave_auth_protocol_zero false connect_ok
              ex_AuthNoPriv _ eq_refl (or_introl eq_refl) eq_refl)
    as (usm & H).
  exists usm. split; [reflexivity | exact H].
Defined.
